(** * server/src/db/postgres.ts : the shared Prisma client

    A shallow embedding of the module that builds the process-wide
    Prisma client, installs the timing/logging middleware, and wires the
    shutdown hooks, followed by the properties of its specification.

    Conventions of the embedding:
    - asynchronous functions are run to settlement: a call takes the
      world at the call and returns how its promise settled together
      with the world at that moment (whatever else ran during an [await]
      is part of what the awaited computation did to the world);
    - closures handed to the Prisma client or to [process.on] are stored
      defunctionalised, with the variables they capture;
    - the wrapped library ([next], [$disconnect]) is a parameter. *)

From Stdlib Require Import ZArith SpecFloat.
From stdpp Require Import base strings list gmap pretty.

Local Open Scope Z_scope.
Local Open Scope string_scope.

(** ** JavaScript values *)

#[local] Set Warnings "-register-all".

Inductive JsValue : Type :=
  | VUndefined
  | VNull
  | VBoolean (b : bool)
  | VNumber (x : spec_float)              (* IEEE 754 binary64 *)
  | VBigInt (z : Z)
  | VString (s : string)
  | VSymbol (description : string)
  | VFunction (name : string)
  | VArray (elements : list JsValue)
  | VObject (properties : list (string * JsValue)).

(** The [typeof] operator. *)
Definition typeof (v : JsValue) : string :=
  match v with
  | VUndefined => "undefined"
  | VNull => "object"
  | VBoolean _ => "boolean"
  | VNumber _ => "number"
  | VBigInt _ => "bigint"
  | VString _ => "string"
  | VSymbol _ => "symbol"
  | VFunction _ => "function"
  | VArray _ => "object"
  | VObject _ => "object"
  end.

(** ToBoolean: [false], [0], [-0], [NaN], [0n], the empty string, [null]
    and [undefined] are falsy, everything else is truthy. *)
Definition ToBoolean (v : JsValue) : bool :=
  match v with
  | VUndefined | VNull => false
  | VBoolean b => b
  | VNumber (S754_zero _) | VNumber S754_nan => false
  | VNumber _ => true
  | VBigInt z => negb (z =? 0)%Z
  | VString s => negb (String.eqb s "")
  | VSymbol _ | VFunction _ | VArray _ | VObject _ => true
  end.

(** [a && b] yields [a] itself when [a] is falsy. *)
Definition js_and (a b : JsValue) : JsValue :=
  if ToBoolean a then b else a.

Definition Array_isArray (v : JsValue) : bool :=
  match v with VArray _ => true | _ => false end.

(** [arr.length] for the values on which the middleware reads it. *)
Definition array_length (v : JsValue) : nat :=
  match v with VArray elements => length elements | _ => 0%nat end.

(** ToString on an integral Number, as a template literal applies it to
    a difference of two [Date.now()] readings or to an array length:
    plain decimal digits, with a leading minus sign below zero. *)
Definition number_to_string (n : Z) : string := pretty n.

(** How a promise settles. Any value can be thrown. *)
Inductive Settled : Type :=
  | Fulfilled (value : JsValue)
  | Rejected (reason : JsValue).

(** ** Module-level constants, lines 5-15 *)

Definition isProd (env : gmap string string) : bool :=
  bool_decide (env !! "NODE_ENV" = Some "production").

Inductive PrismaLogLevel := LQuery | LInfo | LWarn | LError.
Inductive ErrorFormat := Pretty | Colorless | Minimal.

Definition prismaLog (isProd : bool) : list PrismaLogLevel :=
  if isProd then [LWarn; LError] else [LInfo; LWarn; LError].

Record PrismaOptions := {
  log : list PrismaLogLevel;
  errorFormat : ErrorFormat
}.

Definition prismaOptions (isProd : bool) : PrismaOptions :=
  {| log := prismaLog isProd;
     errorFormat := if isProd then Minimal else Pretty |}.

(** ** The middleware's operation descriptor, line 18 *)

Record PrismaMiddlewareParams := {
  model : option string;
  action : option string;
  bag : list (string * JsValue)
}.

(** ** The world: process state shared by everything in the process *)

Definition ref := nat.

(** Closures, with their captured variables. *)
Inductive Middleware := LoggingMiddleware (isProd : bool).
Inductive ExitHook := DisconnectBeforeExit (isProd : bool) (client : ref).
Inductive SignalHandler := RunGracefulExit (prisma : ref) (signal : string).

(** A [PrismaClient] object: its constructor options, the middlewares
    added with [$use] and the listeners added with [$on("beforeExit")]. *)
Record PrismaClient := {
  options : PrismaOptions;
  middlewares : list Middleware;
  beforeExit : list ExitHook
}.

Inductive Stream := Stdout | Stderr.

#[global] Instance Stream_eq_dec : EqDecision Stream.
Proof. solve_decision. Defined.

(** One console call: [console.log] writes to stdout, [console.error]
    to stderr; [extra] holds the arguments after the first. *)
Record LogEntry := {
  stream : Stream;
  text : string;
  extra : list JsValue
}.

Record World := {
  env : gmap string string;            (* process.env *)
  clock : Z;                           (* what Date.now() returns *)
  console : list LogEntry;             (* oldest first *)
  heap : list PrismaClient;            (* client objects, by reference *)
  global_prisma : option ref;          (* globalThis.__prisma__ *)
  slot_assignments : list ref;         (* every write to the slot, oldest first *)
  listeners : list (string * SignalHandler)   (* process.on *)
}.

Definition Date_now (w : World) : Z := clock w.

Definition emit (e : LogEntry) (w : World) : World :=
  {| env := env w; clock := clock w; console := console w ++ [e];
     heap := heap w; global_prisma := global_prisma w;
     slot_assignments := slot_assignments w; listeners := listeners w |}.

Definition console_log (msg : string) (args : list JsValue) : World -> World :=
  emit {| stream := Stdout; text := msg; extra := args |}.

Definition console_error (msg : string) (args : list JsValue) : World -> World :=
  emit {| stream := Stderr; text := msg; extra := args |}.

Definition set_heap (h : list PrismaClient) (w : World) : World :=
  {| env := env w; clock := clock w; console := console w;
     heap := h; global_prisma := global_prisma w;
     slot_assignments := slot_assignments w; listeners := listeners w |}.

(** [globalThis.__prisma__ = c] *)
Definition assign_global_prisma (c : ref) (w : World) : World :=
  {| env := env w; clock := clock w; console := console w;
     heap := heap w; global_prisma := Some c;
     slot_assignments := slot_assignments w ++ [c]; listeners := listeners w |}.

(** [process.on(signal, handler)] *)
Definition process_on (signal : string) (h : SignalHandler) (w : World) : World :=
  {| env := env w; clock := clock w; console := console w;
     heap := heap w; global_prisma := global_prisma w;
     slot_assignments := slot_assignments w;
     listeners := listeners w ++ [(signal, h)] |}.

(** [new PrismaClient(opts)]: a fresh object, referred to by its index. *)
Definition new_PrismaClient (opts : PrismaOptions) (w : World) : ref * World :=
  (length (heap w),
   set_heap (heap w ++ [{| options := opts; middlewares := []; beforeExit := [] |}]) w).

(** [client.$use(m)] *)
Definition client_use (client : ref) (m : Middleware) (w : World) : World :=
  set_heap
    (alter (fun c => {| options := options c;
                        middlewares := middlewares c ++ [m];
                        beforeExit := beforeExit c |}) client (heap w)) w.

(** [client.$on("beforeExit", h)] *)
Definition client_on_beforeExit (client : ref) (h : ExitHook) (w : World) : World :=
  set_heap
    (alter (fun c => {| options := options c;
                        middlewares := middlewares c;
                        beforeExit := beforeExit c ++ [h] |}) client (heap w)) w.

(** ** The logging middleware, lines 29-55

    [next] is the rest of the middleware chain and the query engine. The
    descriptor is one object shared with [next], which may write to it
    before it settles: [next] returns the descriptor as it stands then,
    and that is what the lines after the [await] read. *)

Definition PrismaMiddlewareNext : Type :=
  PrismaMiddlewareParams -> World -> Settled * PrismaMiddlewareParams * World.

Definition middleware (isProd : bool)
    (params : PrismaMiddlewareParams) (next : PrismaMiddlewareNext)
    (w : World) : Settled * PrismaMiddlewareParams * World :=
  let start := Date_now w in
  match next params w with
  | (Fulfilled result, params, w) =>
      let ms := Date_now w - start in
      let w :=
        if negb isProd then
          let isObject :=
            js_and result (VBoolean (bool_decide (typeof result = "object"))) in
          let size :=
            if Array_isArray result then
              " items=" +:+ number_to_string (Z.of_nat (array_length result))
            else if ToBoolean isObject then " item=1"
            else "" in
          let model := default "$internal" (model params) in
          let action := default "$op" (action params) in
          console_log ("[prisma] " +:+ model +:+ "." +:+ action +:+
                       " (" +:+ number_to_string ms +:+ " ms)" +:+ size) [] w
        else w in
      (Fulfilled result, params, w)
  | (Rejected e, params, w) =>
      let ms := Date_now w - start in
      let model := default "$internal" (model params) in
      let action := default "$op" (action params) in
      let w := console_error ("[prisma] " +:+ model +:+ "." +:+ action +:+
                              " FAILED after " +:+ number_to_string ms +:+ " ms") [] w in
      (Rejected e, params, w)
  end.

Definition run_middleware (m : Middleware) :
    PrismaMiddlewareParams -> PrismaMiddlewareNext ->
    World -> Settled * PrismaMiddlewareParams * World :=
  match m with LoggingMiddleware isProd => middleware isProd end.

(** ** createClient, lines 26-63 *)

Definition createClient (isProd : bool) (w : World) : ref * World :=
  let '(client, w) := new_PrismaClient (prismaOptions isProd) w in
  let w := client_use client (LoggingMiddleware isProd) w in
  let w := client_on_beforeExit client (DisconnectBeforeExit isProd client) w in
  (client, w).

(** ** Module evaluation, lines 5-80

    What one evaluation of the module leaves behind: its constants
    [isProd] and [prisma] (the export). *)

Record ModuleInstance := {
  mod_isProd : bool;
  prisma : ref
}.

Definition evaluate_module (w : World) : ModuleInstance * World :=
  let isProd := isProd (env w) in
  let '(prismaBase, w) :=
    match global_prisma w with
    | Some c => (c, w)
    | None => createClient isProd w
    end in
  let w := if negb isProd then assign_global_prisma prismaBase w else w in
  let w := process_on "SIGINT" (RunGracefulExit prismaBase "SIGINT") w in
  let w := process_on "SIGTERM" (RunGracefulExit prismaBase "SIGTERM") w in
  ({| mod_isProd := isProd; prisma := prismaBase |}, w).

(** ** Shutdown paths, lines 57-60 and 71-80 *)

Section Shutdown.

(** [client.$disconnect()] of the wrapped library. *)
Variable disconnect : ref -> World -> Settled * World.

(** The listener of the client's "beforeExit" event. *)
Definition beforeExit_listener (isProd : bool) (client : ref)
    (w : World) : Settled * World :=
  let w := if negb isProd
           then console_log "[prisma] beforeExit ⇒ disconnect" [] w
           else w in
  match disconnect client w with
  | (Fulfilled _, w) => (Fulfilled VUndefined, w)
  | (Rejected e, w) => (Rejected e, w)
  end.

Definition gracefulExit (prisma : ref) (signal : string)
    (w : World) : Settled * World :=
  let w := console_log ("[prisma] Received " +:+ signal +:+
                        ". Closing DB connections...") [] w in
  match disconnect prisma w with
  | (Fulfilled _, w) => (Fulfilled VUndefined, w)
  | (Rejected err, w) =>
      (Fulfilled VUndefined,
       console_error "[prisma] Error during disconnect:" [err] w)
  end.



End Shutdown.

(** ** Vocabulary of the statements *)

(** [needle] occurs in [hay]. *)
Definition contains (needle hay : string) : Prop :=
  exists pre post, hay = pre +:+ needle +:+ post.

(** [after] is [before] with console entries appended and nothing else
    touched. *)
Definition only_logged (before after : World) : Prop :=
  exists entries, after = foldl (fun w e => emit e w) before entries.

(** The name parts of a log line, as read from a descriptor. *)
Definition model_name (p : PrismaMiddlewareParams) : string :=
  default "$internal" (model p).
Definition action_name (p : PrismaMiddlewareParams) : string :=
  default "$op" (action p).

(** The success line up to and including the elapsed time. *)
Definition success_head (p : PrismaMiddlewareParams) (ms : Z) : string :=
  "[prisma] " +:+ model_name p +:+ "." +:+ action_name p +:+
  " (" +:+ number_to_string ms +:+ " ms)".

Definition failure_line (p : PrismaMiddlewareParams) (ms : Z) : string :=
  "[prisma] " +:+ model_name p +:+ "." +:+ action_name p +:+
  " FAILED after " +:+ number_to_string ms +:+ " ms".

(** A process that has just started, and sample inputs. *)
Definition boot (e : gmap string string) (t : Z) : World :=
  {| env := e; clock := t; console := []; heap := [];
     global_prisma := None; slot_assignments := []; listeners := [] |}.

Definition tick (d : Z) (w : World) : World :=
  {| env := env w; clock := clock w + d; console := console w;
     heap := heap w; global_prisma := global_prisma w;
     slot_assignments := slot_assignments w; listeners := listeners w |}.

Definition dev_env : gmap string string := {[ "NODE_ENV" := "development" ]}.
Definition prod_env : gmap string string := {[ "NODE_ENV" := "production" ]}.

Definition user_findMany : PrismaMiddlewareParams :=
  {| model := Some "User"; action := Some "findMany"; bag := [] |}.
Definition raw_query : PrismaMiddlewareParams :=
  {| model := None; action := Some "queryRaw"; bag := [] |}.

(** A continuation that takes [d] ms and settles as [s]. *)
Definition settles (d : Z) (s : Settled) : PrismaMiddlewareNext :=
  fun p w => (s, p, tick d w).

Definition row (n : string) : JsValue := VObject [("name", VString n)].
Definition db_down : JsValue := VObject [("message", VString "connection refused")].

Definition count_of_5 : JsValue := VNumber (S754_finite false 5 0).

(** A [$disconnect] that fails with [db_down]. *)
Definition failing_disconnect : ref -> World -> Settled * World :=
  fun _ w => (Rejected db_down, w).

(** Entries written to stderr. *)
Definition stderr_entries (w : World) : list LogEntry :=
  filter (fun e => stream e = Stderr) (console w).

(** Entries written to stdout. *)
Definition stdout_entries (w : World) : list LogEntry :=
  filter (fun e => stream e = Stdout) (console w).

(** The size annotation, told from the shape of the result. *)
Definition annotation_of (result : JsValue) : string :=
  match result with
  | VArray elements => " items=" +:+ number_to_string (Z.of_nat (length elements))
  | VObject _ => " item=1"
  | _ => ""
  end.

(** [n] evaluations of the module in a row, as under a file watcher. *)
Definition reload (n : nat) (w : World) : World :=
  Nat.iter n (fun w => (evaluate_module w).2) w.

(** * Properties *)

(** ** Strings *)

Lemma string_app_nil_r (s : string) : s +:+ "" = s.
Proof.
  induction s as [|c s IH]; [done|].
  change (String c (s +:+ "") = String c s). by f_equal.
Qed.

Lemma string_app_assoc (a b c : string) : (a +:+ b) +:+ c = a +:+ b +:+ c.
Proof.
  induction a as [|x a IH]; [done|].
  change (String x ((a +:+ b) +:+ c) = String x (a +:+ b +:+ c)). by f_equal.
Qed.

Lemma contains_here (pre needle post : string) :
  contains needle (pre +:+ needle +:+ post).
Proof. by exists pre, post. Qed.

Lemma contains_later (pre needle hay : string) :
  contains needle hay -> contains needle (pre +:+ hay).
Proof.
  intros (a & b & ->). exists (pre +:+ a), b.
  by rewrite string_app_assoc.
Qed.

Lemma contains_end (pre needle : string) : contains needle (pre +:+ needle).
Proof. exists pre, "". by rewrite string_app_nil_r. Qed.

(** ** The middleware, case by case *)

Section Middleware.

Variables (params : PrismaMiddlewareParams) (next : PrismaMiddlewareNext).
Variable w : World.

(** What the continuation did. *)
Variables (settled : Settled) (params' : PrismaMiddlewareParams) (w' : World).
Hypothesis Hnext : next params w = (settled, params', w').

Lemma middleware_rejected (prod : bool) (e : JsValue) :
  settled = Rejected e ->
  middleware prod params next w =
    (Rejected e, params', console_error (failure_line params' (clock w' - clock w)) [] w').
Proof. intros ->. unfold middleware. by rewrite Hnext. Qed.

Lemma middleware_fulfilled_prod (result : JsValue) :
  settled = Fulfilled result ->
  middleware true params next w = (Fulfilled result, params', w').
Proof. intros ->. unfold middleware. by rewrite Hnext. Qed.

Lemma middleware_fulfilled_array (elements : list JsValue) :
  settled = Fulfilled (VArray elements) ->
  middleware false params next w =
    (Fulfilled (VArray elements), params',
     console_log (success_head params' (clock w' - clock w) +:+ " items=" +:+
                  number_to_string (Z.of_nat (length elements))) [] w').
Proof.
  intros ->. unfold middleware. rewrite Hnext. simpl.
  unfold success_head, model_name, action_name.
  by rewrite !string_app_assoc.
Qed.

Lemma middleware_fulfilled_object (properties : list (string * JsValue)) :
  settled = Fulfilled (VObject properties) ->
  middleware false params next w =
    (Fulfilled (VObject properties), params',
     console_log (success_head params' (clock w' - clock w) +:+ " item=1") [] w').
Proof.
  intros ->. unfold middleware. rewrite Hnext. simpl.
  unfold success_head, model_name, action_name.
  by rewrite !string_app_assoc.
Qed.

(** Falsy results, and truthy ones that [typeof] does not call an
    object, get the bare line. *)
Lemma middleware_fulfilled_plain (result : JsValue) :
  settled = Fulfilled result ->
  ToBoolean result = false \/ typeof result <> "object" ->
  middleware false params next w =
    (Fulfilled result, params', console_log (success_head params' (clock w' - clock w)) [] w').
Proof.
  intros -> Hplain. unfold middleware. rewrite Hnext. simpl.
  assert (Array_isArray result = false) as ->.
  { destruct Hplain as [H|H]; destruct result; simpl in *; done. }
  assert (ToBoolean (js_and result
            (VBoolean (bool_decide (typeof result = "object")))) = false) as ->.
  { unfold js_and. destruct (ToBoolean result) eqn:Hb; [|done].
    destruct Hplain as [H|H]; [done|]. simpl. by apply bool_decide_eq_false. }
  unfold success_head, model_name, action_name.
  by rewrite ?string_app_assoc, ?string_app_nil_r.
Qed.

End Middleware.

Lemma console_log_text_inj (s t : string) (w : World) :
  console_log s [] w = console_log t [] w -> s = t.
Proof.
  intros H. apply (f_equal console) in H. simpl in H.
  apply app_inv_head in H. by injection H.
Qed.

Lemma settled_text_inj (r : Settled) (p : PrismaMiddlewareParams)
    (s t : string) (w : World) :
  (r, p, console_log s [] w) = (r, p, console_log t [] w) -> s = t.
Proof. intros H. apply (console_log_text_inj s t w). congruence. Qed.

Lemma only_logged_refl (w : World) : only_logged w w.
Proof. by exists []. Qed.

Lemma only_logged_emit (e : LogEntry) (w : World) : only_logged w (emit e w).
Proof. by exists [e]. Qed.

(** C1. When the continuation fails, whatever the mode, the middleware
    fails with the very same error, and the console holds one more
    entry than the continuation left: a stderr line
    `[prisma] <model>.<action> FAILED after <ms> ms`, which contains the
    model name, the action name and the elapsed milliseconds. *)
Theorem failure_logged_and_rethrown
    (prod : bool) (params : PrismaMiddlewareParams) (next : PrismaMiddlewareNext)
    (w : World) (e : JsValue) (params' : PrismaMiddlewareParams) (w' : World) :
  next params w = (Rejected e, params', w') ->
  let line := failure_line params' (clock w' - clock w) in
  (middleware prod params next w).1 = (Rejected e, params')
  /\ console (middleware prod params next w).2 =
       (console w' ++ [{| stream := Stderr; text := line; extra := [] |}])%list
  /\ contains (model_name params') line
  /\ contains (action_name params') line
  /\ contains (number_to_string (clock w' - clock w)) line.
Proof.
  intros Hnext line.
  rewrite (middleware_rejected _ _ _ _ _ _ Hnext prod e eq_refl).
  split; [done|]. split; [done|].
  unfold line, failure_line. repeat split.
  - apply contains_here.
  - do 2 apply contains_later. apply contains_here.
  - do 4 apply contains_later. apply contains_here.
Qed.

Lemma failure_logged_and_rethrown_witness :
  (middleware true raw_query (settles 7 (Rejected db_down)) (boot prod_env 1000)).1
  = (Rejected db_down, raw_query)
  /\ console (middleware true raw_query (settles 7 (Rejected db_down))
                (boot prod_env 1000)).2
     = [{| stream := Stderr;
           text := "[prisma] $internal.queryRaw FAILED after 7 ms";
           extra := [] |}].
Proof.
  split.
  - exact (proj1 (failure_logged_and_rethrown true raw_query
                    (settles 7 (Rejected db_down)) (boot prod_env 1000)
                    db_down raw_query (tick 7 (boot prod_env 1000)) eq_refl)).
  - exact (proj1 (proj2 (failure_logged_and_rethrown true raw_query
                    (settles 7 (Rejected db_down)) (boot prod_env 1000)
                    db_down raw_query (tick 7 (boot prod_env 1000)) eq_refl))).
Defined.

(** C4. Outside production, when the continuation succeeds with an array
    of N elements, the middleware returns that array and the console
    holds one more entry than the continuation left: a stdout line that
    ends in ` items=N`; for three elements it ends in ` items=3`. *)
Theorem array_result_logs_items
    (params : PrismaMiddlewareParams) (next : PrismaMiddlewareNext) (w : World)
    (elements : list JsValue) (params' : PrismaMiddlewareParams) (w' : World) :
  next params w = (Fulfilled (VArray elements), params', w') ->
  let head := success_head params' (clock w' - clock w) in
  (middleware false params next w).1 = (Fulfilled (VArray elements), params')
  /\ console (middleware false params next w).2 =
       (console w' ++
        [{| stream := Stdout;
            text := head +:+ " items=" +:+
                    number_to_string (Z.of_nat (length elements));
            extra := [] |}])%list
  /\ (length elements = 3%nat ->
      console (middleware false params next w).2 =
        (console w' ++
         [{| stream := Stdout; text := head +:+ " items=3"; extra := [] |}])%list).
Proof.
  intros Hnext head.
  rewrite (middleware_fulfilled_array _ _ _ _ _ _ Hnext elements eq_refl).
  split; [done|]. split; [done|].
  intros Hlen. simpl. by rewrite Hlen.
Qed.

Lemma array_result_logs_items_witness :
  let rows := [row "ada"; row "bob"; row "cy"] in
  console (middleware false user_findMany (settles 12 (Fulfilled (VArray rows)))
             (boot dev_env 1000)).2
  = [{| stream := Stdout;
        text := "[prisma] User.findMany (12 ms) items=3";
        extra := [] |}].
Proof.
  exact (proj2 (proj2 (array_result_logs_items user_findMany
                  (settles 12 (Fulfilled (VArray [row "ada"; row "bob"; row "cy"])))
                  (boot dev_env 1000) [row "ada"; row "bob"; row "cy"]
                  user_findMany (tick 12 (boot dev_env 1000)) eq_refl)) eq_refl).
Defined.

(** C5. Outside production, when the result is an object but not an
    array, the console holds one more entry than the continuation left,
    a stdout line ending in ` item=1`; when the result is [null] or
    [undefined], the one entry added is the stdout line with nothing
    after the elapsed time. The result is returned as it is. *)
Theorem object_logs_item_and_null_logs_nothing
    (params : PrismaMiddlewareParams) (next : PrismaMiddlewareNext) (w : World)
    (result : JsValue) (params' : PrismaMiddlewareParams) (w' : World) :
  next params w = (Fulfilled result, params', w') ->
  let head := success_head params' (clock w' - clock w) in
  (forall properties, result = VObject properties ->
     (middleware false params next w).1 = (Fulfilled result, params')
     /\ console (middleware false params next w).2 =
          (console w' ++
           [{| stream := Stdout; text := head +:+ " item=1"; extra := [] |}])%list)
  /\ (result = VNull \/ result = VUndefined ->
      (middleware false params next w).1 = (Fulfilled result, params')
      /\ console (middleware false params next w).2 =
           (console w' ++
            [{| stream := Stdout; text := head; extra := [] |}])%list).
Proof.
  intros Hnext head. split.
  - intros properties ->.
    by rewrite (middleware_fulfilled_object _ _ _ _ _ _ Hnext properties eq_refl).
  - intros Hnone.
    rewrite (middleware_fulfilled_plain _ _ _ _ _ _ Hnext result eq_refl); [done|].
    left. by destruct Hnone as [-> | ->].
Qed.

Lemma object_logs_item_and_null_logs_nothing_witness :
  console (middleware false user_findMany (settles 3 (Fulfilled (row "ada")))
             (boot dev_env 50)).2
  = [{| stream := Stdout;
        text := "[prisma] User.findMany (3 ms) item=1";
        extra := [] |}]
  /\ console (middleware false user_findMany (settles 3 (Fulfilled VNull))
                (boot dev_env 50)).2
     = [{| stream := Stdout;
           text := "[prisma] User.findMany (3 ms)";
           extra := [] |}].
Proof.
  split.
  - exact (proj2 (proj1 (object_logs_item_and_null_logs_nothing user_findMany
                    (settles 3 (Fulfilled (row "ada"))) (boot dev_env 50)
                    (row "ada") user_findMany (tick 3 (boot dev_env 50)) eq_refl)
                 [("name", VString "ada")] eq_refl)).
  - exact (proj2 (proj2 (object_logs_item_and_null_logs_nothing user_findMany
                    (settles 3 (Fulfilled VNull)) (boot dev_env 50)
                    VNull user_findMany (tick 3 (boot dev_env 50)) eq_refl)
                 (or_introl eq_refl))).
Defined.

(** C6. In production a successful operation leaves the console exactly
    as the continuation left it, while a failed one still appends the
    failure line on stderr. *)
Theorem production_logs_failures_only
    (params : PrismaMiddlewareParams) (next : PrismaMiddlewareNext) (w : World)
    (settled : Settled) (params' : PrismaMiddlewareParams) (w' : World) :
  next params w = (settled, params', w') ->
  (forall result, settled = Fulfilled result ->
     middleware true params next w = (Fulfilled result, params', w'))
  /\ (forall e, settled = Rejected e ->
      console (middleware true params next w).2 =
        (console w' ++ [{| stream := Stderr;
                           text := failure_line params' (clock w' - clock w);
                           extra := [] |}])%list).
Proof.
  intros Hnext. split.
  - intros result Hs. by eapply middleware_fulfilled_prod.
  - intros e Hs. by erewrite middleware_rejected.
Qed.

Lemma production_logs_failures_only_witness :
  middleware true user_findMany (settles 4 (Fulfilled (VArray [])))
    (boot prod_env 10)
  = (Fulfilled (VArray []), user_findMany, tick 4 (boot prod_env 10))
  /\ console (middleware true user_findMany (settles 4 (Rejected db_down))
                (boot prod_env 10)).2
  = [{| stream := Stderr;
        text := "[prisma] User.findMany FAILED after 4 ms";
        extra := [] |}].
Proof.
  split.
  - exact (proj1 (production_logs_failures_only user_findMany
                    (settles 4 (Fulfilled (VArray []))) (boot prod_env 10)
                    (Fulfilled (VArray [])) user_findMany
                    (tick 4 (boot prod_env 10)) eq_refl)
                 (VArray []) eq_refl).
  - exact (proj2 (production_logs_failures_only user_findMany
                    (settles 4 (Rejected db_down)) (boot prod_env 10)
                    (Rejected db_down) user_findMany
                    (tick 4 (boot prod_env 10)) eq_refl)
                 db_down eq_refl).
Defined.

(** C7. The middleware calls the continuation on the descriptor and the
    world it was given, settles exactly as the continuation settled (same
    result or same error, descriptor as the continuation left it), and
    the world it leaves differs from the continuation's only by console
    entries appended. *)
Theorem middleware_only_logs
    (prod : bool) (params : PrismaMiddlewareParams) (next : PrismaMiddlewareNext)
    (w : World) :
  exists w2,
    middleware prod params next w = ((next params w).1, w2)
    /\ only_logged (next params w).2 w2.
Proof.
  unfold middleware.
  destruct (next params w) as [[[result|e] params'] w']; simpl.
  - destruct prod; simpl; eexists; (split; [reflexivity|]).
    + apply only_logged_refl.
    + apply only_logged_emit.
  - eexists; split; [reflexivity|]. apply only_logged_emit.
Qed.

(** C10. Outside production, a successful result whose [typeof] is not
    "object" (a number, a boolean, a string, ...) is logged with nothing
    after the elapsed time; and whenever the line logged carries
    ` item=1`, the result is truthy with [typeof] "object". *)
Theorem non_object_result_logs_no_size
    (params : PrismaMiddlewareParams) (next : PrismaMiddlewareNext) (w : World)
    (result : JsValue) (params' : PrismaMiddlewareParams) (w' : World) :
  next params w = (Fulfilled result, params', w') ->
  let head := success_head params' (clock w' - clock w) in
  (typeof result <> "object" ->
     middleware false params next w =
       (Fulfilled result, params', console_log head [] w'))
  /\ (middleware false params next w =
        (Fulfilled result, params', console_log (head +:+ " item=1") [] w') ->
      ToBoolean result = true /\ typeof result = "object").
Proof.
  intros Hnext head. split.
  - intros Hty. eapply middleware_fulfilled_plain; [done..|]. by right.
  - intros Hrun.
    destruct (decide (typeof result = "object")) as [Hty|Hty].
    + destruct result; try discriminate Hty; try done.
      (* what is left is null, the one falsy value with that typeof *)
      erewrite middleware_fulfilled_plain in Hrun; [|done..|by left].
      apply settled_text_inj in Hrun.
      fold head in Hrun. rewrite <- (string_app_nil_r head) in Hrun at 1.
      apply (inj (String.app head)) in Hrun. discriminate Hrun.
    + erewrite middleware_fulfilled_plain in Hrun; [|done..|by right].
      apply settled_text_inj in Hrun.
      fold head in Hrun. rewrite <- (string_app_nil_r head) in Hrun at 1.
      apply (inj (String.app head)) in Hrun. discriminate Hrun.
Qed.

Lemma non_object_result_logs_no_size_witness :
  middleware false user_findMany (settles 2 (Fulfilled count_of_5))
    (boot dev_env 0)
  = (Fulfilled count_of_5, user_findMany,
     console_log "[prisma] User.findMany (2 ms)" [] (tick 2 (boot dev_env 0)))
  /\ (ToBoolean (row "ada") = true /\ typeof (row "ada") = "object").
Proof.
  split.
  - apply (proj1 (non_object_result_logs_no_size user_findMany
                    (settles 2 (Fulfilled count_of_5)) (boot dev_env 0)
                    count_of_5 user_findMany (tick 2 (boot dev_env 0)) eq_refl)).
    discriminate.
  - apply (proj2 (non_object_result_logs_no_size user_findMany
                    (settles 2 (Fulfilled (row "ada"))) (boot dev_env 0)
                    (row "ada") user_findMany (tick 2 (boot dev_env 0)) eq_refl)).
    reflexivity.
Defined.

(** ** Client construction *)

Lemma createClient_spec (prod : bool) (w : World) :
  createClient prod w =
    (length (heap w),
     set_heap (heap w ++
       [{| options := prismaOptions prod;
           middlewares := [LoggingMiddleware prod];
           beforeExit := [DisconnectBeforeExit prod (length (heap w))] |}]) w).
Proof.
  unfold createClient, new_PrismaClient, client_on_beforeExit, client_use,
    set_heap; simpl.
  do 2 f_equal.
  rewrite <- (Nat.add_0_r (length (heap w))) at 1 2.
  by rewrite !alter_app_r.
Qed.

(** C9. The options passed to the client: in production, log levels
    warn and error with the minimal error format; otherwise info, warn
    and error with the pretty format. The client that [createClient]
    returns was constructed with them. *)
Theorem client_options_by_mode :
  prismaOptions true = {| log := [LWarn; LError]; errorFormat := Minimal |}
  /\ prismaOptions false =
       {| log := [LInfo; LWarn; LError]; errorFormat := Pretty |}
  /\ forall (prod : bool) (w : World),
       options <$> heap (createClient prod w).2 !! (createClient prod w).1
       = Some (prismaOptions prod).
Proof.
  repeat split. intros prod w. rewrite createClient_spec. simpl.
  by rewrite list_lookup_middle.
Qed.

(** ** The environment mode *)

Lemma evaluate_module_isProd (w : World) :
  mod_isProd (evaluate_module w).1 = isProd (env w).
Proof.
  unfold evaluate_module.
  destruct (global_prisma w); [done|].
  by destruct (createClient (isProd (env w)) w).
Qed.

(** C8. The mode is production exactly when NODE_ENV is "production";
    an absent variable or any other value gives non-production. The
    module reads it when it is evaluated, and the middleware it installs
    on the client it creates keeps behaving by that reading in every
    later world, whatever the environment holds by then. *)
Theorem environment_mode (w : World) :
  (isProd (env w) = true <-> env w !! "NODE_ENV" = Some "production")
  /\ (env w !! "NODE_ENV" = None -> isProd (env w) = false)
  /\ (forall v, env w !! "NODE_ENV" = Some v -> v <> "production" ->
        isProd (env w) = false)
  /\ mod_isProd (evaluate_module w).1 = isProd (env w)
  /\ (global_prisma w = None ->
      exists client,
        heap (evaluate_module w).2 !! prisma (evaluate_module w).1 = Some client
        /\ middlewares client <> []
        /\ forall m params next later,
             m ∈ middlewares client ->
             run_middleware m params next later =
               middleware (isProd (env w)) params next later).
Proof.
  split; [apply bool_decide_eq_true|].
  split; [intros H; apply bool_decide_eq_false; by rewrite H|].
  split; [intros v H Hv; apply bool_decide_eq_false; rewrite H; congruence|].
  split; [apply evaluate_module_isProd|].
  intros Hslot. unfold evaluate_module. rewrite Hslot, createClient_spec.
  eexists. split.
  - destruct (negb (isProd (env w))); simpl; apply list_lookup_middle; done.
  - split; [done|]. intros m params next later Hm.
    apply list_elem_of_singleton in Hm. by subst m.
Qed.

Lemma environment_mode_witness :
  isProd dev_env = false
  /\ isProd (∅ : gmap string string) = false
  /\ mod_isProd (evaluate_module (boot prod_env 0)).1 = true.
Proof.
  split; [|split].
  - apply (proj1 (proj2 (proj2 (environment_mode (boot dev_env 0))))
             "development"); [reflexivity | discriminate].
  - apply (proj1 (proj2 (environment_mode (boot ∅ 0)))). reflexivity.
  - rewrite (proj1 (proj2 (proj2 (proj2 (environment_mode (boot prod_env 0)))))).
    apply (proj1 (environment_mode (boot prod_env 0))). reflexivity.
Defined.

(** ** The singleton holder *)

(** One evaluation outside production: the export is the client in the
    slot, or a fresh one if the slot is empty, and it is assigned to the
    slot in either case. *)
Lemma evaluate_module_dev (w : World) :
  isProd (env w) = false ->
  let c := default (length (heap w)) (global_prisma w) in
  prisma (evaluate_module w).1 = c
  /\ global_prisma (evaluate_module w).2 = Some c
  /\ slot_assignments (evaluate_module w).2 = (slot_assignments w ++ [c])%list.
Proof.
  intros Hdev. unfold evaluate_module. rewrite Hdev.
  destruct (global_prisma w) as [c|]; [done|].
  by rewrite createClient_spec.
Qed.

(** C3, as the code has it. Outside production, a later evaluation of
    the module in the same process (the slot not written by anyone else
    in between) exports the very client the earlier one exported, and the
    slot holds that client. Each of the two evaluations assigns the slot,
    both times with that same client. *)
Theorem handle_is_singleton (w later : World) :
  isProd (env w) = false ->
  isProd (env later) = false ->
  global_prisma later = global_prisma (evaluate_module w).2 ->
  slot_assignments later = slot_assignments (evaluate_module w).2 ->
  let first := evaluate_module w in
  let second := evaluate_module later in
  prisma second.1 = prisma first.1
  /\ global_prisma first.2 = Some (prisma first.1)
  /\ global_prisma second.2 = Some (prisma first.1)
  /\ slot_assignments second.2 =
       (slot_assignments w ++ [prisma first.1; prisma first.1])%list.
Proof.
  intros Hdev Hdev' Hslot Hlog first second.
  destruct (evaluate_module_dev w Hdev) as (H1 & H2 & H3).
  destruct (evaluate_module_dev later Hdev') as (K1 & K2 & K3).
  fold first in H1, H2, H3, Hslot, Hlog. fold second in K1, K2, K3.
  rewrite Hslot, H2 in K1, K2, K3. simpl in K1, K2, K3.
  rewrite Hlog, H3, <- H1 in K3. rewrite <- H1 in K1, K2.
  rewrite <- (assoc_L (++)) in K3. rewrite <- H1 in H2. done.
Qed.

Lemma handle_is_singleton_witness :
  let w := boot dev_env 0 in
  let later := tick 500 (evaluate_module w).2 in
  prisma (evaluate_module later).1 = prisma (evaluate_module w).1
  /\ global_prisma (evaluate_module w).2 = Some (prisma (evaluate_module w).1)
  /\ global_prisma (evaluate_module later).2 = Some (prisma (evaluate_module w).1)
  /\ slot_assignments (evaluate_module later).2 =
       [prisma (evaluate_module w).1; prisma (evaluate_module w).1].
Proof.
  exact (handle_is_singleton (boot dev_env 0)
           (tick 500 (evaluate_module (boot dev_env 0)).2)
           eq_refl eq_refl eq_refl eq_refl).
Defined.

(** C3, as stated, fails: a process that evaluates the module twice
    outside production gets the same client both times, but has written
    the slot twice. *)
Lemma slot_written_on_every_evaluation :
  let w := boot dev_env 0 in
  let first := evaluate_module w in
  let second := evaluate_module first.2 in
  isProd (env w) = false
  /\ prisma second.1 = prisma first.1
  /\ slot_assignments second.2 = [prisma first.1; prisma first.1]
  /\ ¬ (length (slot_assignments second.2) <= 1)%nat.
Proof. vm_compute. repeat split. lia. Qed.

(** ** Shutdown *)


(** A client made by [createClient] has one before-exit listener, closing
    that same client. *)
Lemma createClient_beforeExit (prod : bool) (w : World) :
  beforeExit <$> heap (createClient prod w).2 !! (createClient prod w).1
  = Some [DisconnectBeforeExit prod (createClient prod w).1].
Proof.
  rewrite createClient_spec. simpl. by rewrite list_lookup_middle.
Qed.

Section ShutdownFacts.

Variable disconnect : ref -> World -> Settled * World.

(** The signal path never rejects, whatever [$disconnect] does. *)
Lemma gracefulExit_never_rejects (c : ref) (signal : string) (w : World) :
  exists w', gracefulExit disconnect c signal w = (Fulfilled VUndefined, w').
Proof.
  unfold gracefulExit.
  destruct (disconnect c _) as [[v|err] w']; by eexists.
Qed.

(** ... and reports a failing [$disconnect] on stderr. *)
Lemma gracefulExit_logs_error (c : ref) (signal : string) (w w' : World)
    (err : JsValue) :
  disconnect c (console_log ("[prisma] Received " +:+ signal +:+
                             ". Closing DB connections...") [] w)
    = (Rejected err, w') ->
  gracefulExit disconnect c signal w =
    (Fulfilled VUndefined,
     console_error "[prisma] Error during disconnect:" [err] w').
Proof. intros H. unfold gracefulExit. by rewrite H. Qed.

(** Two signals in a row: both calls fulfil. *)
Lemma gracefulExit_twice (c : ref) (s1 s2 : string) (w : World) :
  exists w1 w2,
    gracefulExit disconnect c s1 w = (Fulfilled VUndefined, w1)
    /\ gracefulExit disconnect c s2 w1 = (Fulfilled VUndefined, w2).
Proof.
  destruct (gracefulExit_never_rejects c s1 w) as [w1 H1].
  destruct (gracefulExit_never_rejects c s2 w1) as [w2 H2].
  by exists w1, w2.
Qed.

(** The before-exit path settles as [$disconnect] settles. *)
Lemma beforeExit_listener_rejected (prod : bool) (c : ref) (w w' : World)
    (err : JsValue) :
  disconnect c (if negb prod
                then console_log "[prisma] beforeExit ⇒ disconnect" [] w
                else w) = (Rejected err, w') ->
  beforeExit_listener disconnect prod c w = (Rejected err, w').
Proof. intros H. unfold beforeExit_listener. by rewrite H. Qed.

End ShutdownFacts.

(** C2, at a [$disconnect] that fails with [db_down]. The before-exit
    listener rejects with that error and writes nothing to stderr; the
    signal path, on the same failure, fulfils and reports the error on
    stderr. *)
Theorem beforeExit_listener_rethrows (prod : bool) (client : ref) (w : World) :
  let announced := if negb prod
                   then console_log "[prisma] beforeExit ⇒ disconnect" [] w
                   else w in
  beforeExit_listener failing_disconnect prod client w = (Rejected db_down, announced)
  /\ stderr_entries announced = stderr_entries w
  /\ gracefulExit failing_disconnect client "SIGTERM" w =
       (Fulfilled VUndefined,
        console_error "[prisma] Error during disconnect:" [db_down]
          (console_log "[prisma] Received SIGTERM. Closing DB connections..." [] w)).
Proof.
  repeat split.
  destruct prod; simpl; [done|].
  unfold stderr_entries. simpl. rewrite filter_app.
  rewrite filter_cons_False by (simpl; discriminate).
  by rewrite filter_nil, app_nil_r.
Qed.

(** * Further properties of the code *)

(** ** The middleware *)

(** X1. Outside production every success returns the result as it is
    and leaves the console with exactly one more entry than the
    continuation left, on stdout: the head
    `[prisma] <model>.<action> (<ms> ms)`, which contains the model name,
    the action name and the elapsed milliseconds, followed by an
    annotation fixed by the shape of the result (` items=N` for an array,
    the empty one included; ` item=1` for any other object; nothing for
    [null], [undefined] and every primitive, falsy or not). *)
Theorem success_line_by_shape
    (params : PrismaMiddlewareParams) (next : PrismaMiddlewareNext) (w : World)
    (result : JsValue) (params' : PrismaMiddlewareParams) (w' : World) :
  next params w = (Fulfilled result, params', w') ->
  let head := success_head params' (clock w' - clock w) in
  (middleware false params next w).1 = (Fulfilled result, params')
  /\ console (middleware false params next w).2 =
       (console w' ++
        [{| stream := Stdout;
            text := head +:+ annotation_of result;
            extra := [] |}])%list
  /\ contains (model_name params') head
  /\ contains (action_name params') head
  /\ contains (number_to_string (clock w' - clock w)) head.
Proof.
  intros Hnext head.
  assert (middleware false params next w =
            (Fulfilled result, params',
             console_log (head +:+ annotation_of result) [] w')) as ->.
  { destruct result;
      try (rewrite string_app_nil_r;
           eapply middleware_fulfilled_plain; [done..|]; by right).
    - rewrite string_app_nil_r.
      eapply middleware_fulfilled_plain; [done..|]. by left.
    - by eapply middleware_fulfilled_array.
    - by eapply middleware_fulfilled_object. }
  split; [done|]. split; [done|].
  unfold head, success_head. repeat split.
  - apply contains_here.
  - do 2 apply contains_later. apply contains_here.
  - do 4 apply contains_later. apply contains_here.
Qed.

Lemma success_line_by_shape_witness :
  console (middleware false raw_query (settles 9 (Fulfilled (VArray [])))
             (boot dev_env 0)).2
  = [{| stream := Stdout;
        text := "[prisma] $internal.queryRaw (9 ms) items=0";
        extra := [] |}].
Proof.
  exact (proj1 (proj2 (success_line_by_shape raw_query
                  (settles 9 (Fulfilled (VArray []))) (boot dev_env 0)
                  (VArray []) raw_query (tick 9 (boot dev_env 0)) eq_refl))).
Defined.

(** X2. The elapsed time printed, in the failure line (either mode) and
    in the success line (outside production), is the plain difference
    of the two clock readings. If the clock did not step back while the
    operation ran, the number printed carries no minus sign; if it did,
    the entry added to the console shows a negative duration: the
    middleware does not clamp it. *)
Theorem elapsed_is_clock_difference
    (prod : bool) (params : PrismaMiddlewareParams) (next : PrismaMiddlewareNext)
    (w : World) (settled : Settled) (params' : PrismaMiddlewareParams)
    (w' : World) :
  next params w = (settled, params', w') ->
  let ms := clock w' - clock w in
  (forall e, settled = Rejected e ->
     console (middleware prod params next w).2 =
       (console w' ++
        [{| stream := Stderr;
            text := "[prisma] " +:+ model_name params' +:+ "." +:+
                    action_name params' +:+ " FAILED after " +:+
                    number_to_string ms +:+ " ms";
            extra := [] |}])%list)
  /\ (forall v, settled = Fulfilled v ->
      console (middleware false params next w).2 =
        (console w' ++
         [{| stream := Stdout;
             text := ("[prisma] " +:+ model_name params' +:+ "." +:+
                      action_name params' +:+ " (" +:+
                      number_to_string ms +:+ " ms)") +:+ annotation_of v;
             extra := [] |}])%list)
  /\ (clock w <= clock w' -> forall s, number_to_string ms <> "-" +:+ s)
  /\ (clock w' < clock w ->
      number_to_string ms = "-" +:+ number_to_string (clock w - clock w')).
Proof.
  intros Hnext ms. split; [|split; [|split]].
  - intros e ->.
    by rewrite (middleware_rejected _ _ _ _ _ _ Hnext prod e eq_refl).
  - intros v ->.
    assert (middleware false params next w =
              (Fulfilled v, params',
               console_log (success_head params' ms +:+ annotation_of v) [] w'))
      as ->; [|done].
    destruct v;
      try (rewrite string_app_nil_r;
           eapply middleware_fulfilled_plain; [done..|]; by right).
    + rewrite string_app_nil_r.
      eapply middleware_fulfilled_plain; [done..|]. by left.
    + by eapply middleware_fulfilled_array.
    + by eapply middleware_fulfilled_object.
  - intros Hle s. unfold number_to_string, pretty, pretty_Z.
    destruct ms as [|p|p] eqn:Hms; [discriminate| |lia].
    unfold pretty, pretty_positive, pretty, pretty_N.
    destruct (decide (N.pos p = 0%N)); [discriminate|].
    apply pretty_N_go_ne_dash. discriminate.
  - intros Hlt. replace (clock w - clock w') with (- ms) by (unfold ms; lia).
    destruct ms as [|p|p] eqn:Hms; [lia..|]. reflexivity.
Qed.

Lemma elapsed_is_clock_difference_witness :
  console (middleware true user_findMany (settles (-250) (Rejected db_down))
             (boot prod_env 1000)).2
  = [{| stream := Stderr;
        text := "[prisma] User.findMany FAILED after -250 ms";
        extra := [] |}]
  /\ console (middleware false user_findMany (settles (-250) (Fulfilled (row "ada")))
                (boot dev_env 1000)).2
     = [{| stream := Stdout;
           text := "[prisma] User.findMany (-250 ms) item=1";
           extra := [] |}]
  /\ (forall s, number_to_string (1007 - 1000) <> "-" +:+ s)
  /\ number_to_string (750 - 1000) = "-" +:+ number_to_string (1000 - 750).
Proof.
  split; [|split; [|split]].
  - exact (proj1 (elapsed_is_clock_difference true user_findMany
                    (settles (-250) (Rejected db_down)) (boot prod_env 1000)
                    (Rejected db_down) user_findMany
                    (tick (-250) (boot prod_env 1000)) eq_refl)
                 db_down eq_refl).
  - exact (proj1 (proj2 (elapsed_is_clock_difference false user_findMany
                    (settles (-250) (Fulfilled (row "ada"))) (boot dev_env 1000)
                    (Fulfilled (row "ada")) user_findMany
                    (tick (-250) (boot dev_env 1000)) eq_refl))
                 (row "ada") eq_refl).
  - apply (proj1 (proj2 (proj2 (elapsed_is_clock_difference true user_findMany
                    (settles 7 (Rejected db_down)) (boot prod_env 1000)
                    (Rejected db_down) user_findMany
                    (tick 7 (boot prod_env 1000)) eq_refl)))).
    simpl. lia.
  - apply (proj2 (proj2 (proj2 (elapsed_is_clock_difference true user_findMany
                    (settles (-250) (Rejected db_down)) (boot prod_env 1000)
                    (Rejected db_down) user_findMany
                    (tick (-250) (boot prod_env 1000)) eq_refl)))).
    simpl. lia.
Defined.

(** X3. Which stream, and how many entries. A success never writes to
    stderr and a failure never writes to stdout, in either mode; the
    middleware adds exactly one console entry, except on a success in
    production, where it adds none. *)
Theorem middleware_streams_and_count
    (prod : bool) (params : PrismaMiddlewareParams) (next : PrismaMiddlewareNext)
    (w : World) (settled : Settled) (params' : PrismaMiddlewareParams)
    (w' : World) :
  next params w = (settled, params', w') ->
  let after := (middleware prod params next w).2 in
  (forall v, settled = Fulfilled v -> stderr_entries after = stderr_entries w')
  /\ (forall e, settled = Rejected e -> stdout_entries after = stdout_entries w')
  /\ length (console after) =
       (length (console w') +
        match settled with
        | Fulfilled _ => if prod then 0 else 1
        | Rejected _ => 1
        end)%nat.
Proof.
  intros Hnext after. unfold after, middleware. rewrite Hnext.
  unfold stderr_entries, stdout_entries.
  destruct settled as [v|e]; [destruct prod|]; simpl;
    repeat split; intros; try discriminate;
    rewrite ?filter_app, ?filter_cons_False, ?filter_nil, ?app_nil_r,
      ?length_app by (simpl; discriminate);
    simpl; done || lia.
Qed.

Lemma middleware_streams_and_count_witness :
  stderr_entries (middleware false user_findMany
                    (settles 1 (Fulfilled VNull)) (boot dev_env 0)).2 = []
  /\ stdout_entries (middleware false user_findMany
                       (settles 1 (Rejected db_down)) (boot dev_env 0)).2 = [].
Proof.
  split.
  - exact (proj1 (middleware_streams_and_count false user_findMany
                    (settles 1 (Fulfilled VNull)) (boot dev_env 0)
                    (Fulfilled VNull) user_findMany (tick 1 (boot dev_env 0))
                    eq_refl) VNull eq_refl).
  - exact (proj1 (proj2 (middleware_streams_and_count false user_findMany
                    (settles 1 (Rejected db_down)) (boot dev_env 0)
                    (Rejected db_down) user_findMany (tick 1 (boot dev_env 0))
                    eq_refl)) db_down eq_refl).
Defined.

(** ** Module evaluation and reloads *)

Lemma evaluate_module_frame (w : World) :
  env (evaluate_module w).2 = env w
  /\ clock (evaluate_module w).2 = clock w
  /\ console (evaluate_module w).2 = console w.
Proof.
  unfold evaluate_module.
  destruct (global_prisma w) as [c|]; [|rewrite createClient_spec];
    by destruct (negb (isProd (env w))).
Qed.

Lemma evaluate_module_heap (w : World) :
  heap (evaluate_module w).2 =
    match global_prisma w with
    | Some _ => heap w
    | None =>
        (heap w ++
         [{| options := prismaOptions (isProd (env w));
             middlewares := [LoggingMiddleware (isProd (env w))];
             beforeExit :=
               [DisconnectBeforeExit (isProd (env w)) (length (heap w))] |}])%list
    end.
Proof.
  unfold evaluate_module.
  destruct (global_prisma w) as [c|]; [|rewrite createClient_spec];
    by destruct (negb (isProd (env w))).
Qed.

Lemma evaluate_module_prisma (w : World) :
  prisma (evaluate_module w).1 = default (length (heap w)) (global_prisma w).
Proof.
  unfold evaluate_module.
  destruct (global_prisma w) as [c|]; [done|]. by rewrite createClient_spec.
Qed.

Lemma evaluate_module_slot_prod (w : World) :
  isProd (env w) = true ->
  global_prisma (evaluate_module w).2 = global_prisma w
  /\ slot_assignments (evaluate_module w).2 = slot_assignments w.
Proof.
  intros Hprod. unfold evaluate_module. rewrite Hprod.
  destruct (global_prisma w) as [c|] eqn:Hs; [|rewrite createClient_spec];
    simpl; by rewrite Hs.
Qed.

(** X5. The slot is consulted in every mode. When it holds a client, the
    module exports that client and creates nothing, in production too;
    when it is empty, the export is a newly created client. Evaluating
    the module writes nothing to the console. *)
Theorem evaluate_module_creates_iff_slot_empty (w : World) :
  (forall c, global_prisma w = Some c ->
     prisma (evaluate_module w).1 = c
     /\ heap (evaluate_module w).2 = heap w)
  /\ (global_prisma w = None ->
      heap w !! prisma (evaluate_module w).1 = None
      /\ is_Some (heap (evaluate_module w).2 !! prisma (evaluate_module w).1)
      /\ length (heap (evaluate_module w).2) = S (length (heap w)))
  /\ console (evaluate_module w).2 = console w.
Proof.
  rewrite evaluate_module_prisma, evaluate_module_heap.
  split; [|split; [|apply evaluate_module_frame]].
  - intros c Hslot. by rewrite Hslot.
  - intros Hempty. rewrite Hempty. simpl. split; [|split].
    + by apply lookup_ge_None_2.
    + rewrite list_lookup_middle by done. by eexists.
    + rewrite length_app. simpl. lia.
Qed.

Lemma evaluate_module_creates_iff_slot_empty_witness :
  (prisma (evaluate_module (assign_global_prisma 0%nat
             (createClient false (boot prod_env 0)).2)).1 = 0%nat
   /\ heap (evaluate_module (assign_global_prisma 0%nat
              (createClient false (boot prod_env 0)).2)).2
      = heap (createClient false (boot prod_env 0)).2)
  /\ length (heap (evaluate_module (boot prod_env 0)).2) = 1%nat.
Proof.
  split.
  - exact (proj1 (evaluate_module_creates_iff_slot_empty
             (assign_global_prisma 0%nat (createClient false (boot prod_env 0)).2))
             0%nat eq_refl).
  - exact (proj2 (proj2 (proj1 (proj2 (evaluate_module_creates_iff_slot_empty
             (boot prod_env 0))) eq_refl))).
Defined.

(** X6. In production the module never writes the global slot, so from
    an empty slot two evaluations export two different clients. *)
Theorem production_leaves_slot_alone (w : World) :
  isProd (env w) = true ->
  let first := evaluate_module w in
  let second := evaluate_module first.2 in
  global_prisma first.2 = global_prisma w
  /\ slot_assignments first.2 = slot_assignments w
  /\ (global_prisma w = None ->
      prisma second.1 = S (prisma first.1)
      /\ prisma second.1 <> prisma first.1).
Proof.
  intros Hprod first second.
  destruct (evaluate_module_slot_prod w Hprod) as [Hslot Hlog].
  split; [done|]. split; [done|]. intros Hempty.
  assert (prisma second.1 = S (prisma first.1)) as Heq.
  { unfold second, first.
    rewrite !evaluate_module_prisma, Hslot, Hempty, evaluate_module_heap, Hempty.
    rewrite length_app. simpl. lia. }
  split; [done|lia].
Qed.

Lemma production_leaves_slot_alone_witness :
  global_prisma (evaluate_module (boot prod_env 0)).2 = None
  /\ prisma (evaluate_module (evaluate_module (boot prod_env 0)).2).1
     <> prisma (evaluate_module (boot prod_env 0)).1.
Proof.
  split.
  - exact (proj1 (production_leaves_slot_alone (boot prod_env 0) eq_refl)).
  - exact (proj2 (proj2 (proj2 (production_leaves_slot_alone (boot prod_env 0)
                                  eq_refl)) eq_refl)).
Defined.

Lemma reload_S (n : nat) (w : World) :
  reload (S n) w = (evaluate_module (reload n w)).2.
Proof. reflexivity. Qed.

Lemma reload_first (n : nat) (w : World) :
  reload (S n) w = reload n (evaluate_module w).2.
Proof. unfold reload. by rewrite Nat.iter_succ_r. Qed.

Lemma reload_env (n : nat) (w : World) : env (reload n w) = env w.
Proof.
  induction n as [|n IH]; [done|].
  rewrite reload_S. by rewrite (proj1 (evaluate_module_frame _)).
Qed.

(** Once the slot holds a client, reloads outside production keep the
    slot and the heap as they are. *)
Lemma reload_populated (n : nat) (w : World) (c : ref) :
  isProd (env w) = false ->
  global_prisma w = Some c ->
  global_prisma (reload n w) = Some c /\ heap (reload n w) = heap w.
Proof.
  intros Hdev Hslot. induction n as [|n [IHslot IHheap]]; [done|].
  rewrite reload_S. split.
  - destruct (evaluate_module_dev (reload n w)) as (_ & H & _).
    { by rewrite reload_env. }
    by rewrite H, IHslot.
  - by rewrite evaluate_module_heap, IHslot.
Qed.

(** X7. Outside production, however often the module is evaluated again,
    the process holds the clients it had after the first evaluation and
    no others, at most one more than before, and the slot keeps naming
    the client first exported. *)
Theorem reloads_create_one_client (n : nat) (w : World) :
  isProd (env w) = false ->
  heap (reload (S n) w) = heap (evaluate_module w).2
  /\ global_prisma (reload (S n) w) = Some (prisma (evaluate_module w).1)
  /\ (length (heap (reload (S n) w)) <= S (length (heap w)))%nat.
Proof.
  intros Hdev. rewrite reload_first.
  destruct (evaluate_module_dev w Hdev) as (Hc & Hslot & _).
  rewrite <- Hc in Hslot.
  destruct (reload_populated n (evaluate_module w).2
              (prisma (evaluate_module w).1)) as [Hs Hh]; [|done|].
  { by rewrite (proj1 (evaluate_module_frame w)). }
  rewrite Hs, Hh. repeat split.
  rewrite evaluate_module_heap.
  destruct (global_prisma w); [lia|]. rewrite length_app. simpl. lia.
Qed.

Lemma reloads_create_one_client_witness :
  length (heap (reload 5 (boot dev_env 0))) = 1%nat
  /\ global_prisma (reload 5 (boot dev_env 0)) = Some 0%nat.
Proof.
  split.
  - exact (f_equal length
             (proj1 (reloads_create_one_client 4 (boot dev_env 0) eq_refl))).
  - exact (proj1 (proj2 (reloads_create_one_client 4 (boot dev_env 0) eq_refl))).
Defined.

(** X8. In production, with the slot empty, every evaluation of the
    module creates a client of its own: [n] evaluations leave [n] more
    clients in the process, and the slot still empty. *)
Theorem production_reloads_create_n_clients (n : nat) (w : World) :
  isProd (env w) = true ->
  global_prisma w = None ->
  length (heap (reload n w)) = (length (heap w) + n)%nat
  /\ global_prisma (reload n w) = None.
Proof.
  intros Hprod Hempty. induction n as [|n [IHlen IHslot]].
  - split; [simpl; lia | done].
  - rewrite reload_S. split.
    + rewrite evaluate_module_heap, IHslot, length_app, IHlen. simpl. lia.
    + destruct (evaluate_module_slot_prod (reload n w)) as [H _].
      { by rewrite reload_env. }
      by rewrite H.
Qed.

Lemma production_reloads_create_n_clients_witness :
  length (heap (reload 3 (boot prod_env 0))) = 3%nat.
Proof.
  exact (proj1 (production_reloads_create_n_clients 3 (boot prod_env 0)
                  eq_refl eq_refl)).
Defined.


(** ** Shutdown wiring *)



(** X11. [gracefulExit] never rejects, whatever [$disconnect] does: its
    promise fulfils with [undefined], and so does a second call made
    after the first, for the same or another signal. *)
Theorem gracefulExit_always_fulfils
    (disconnect : ref -> World -> Settled * World)
    (c : ref) (s1 s2 : string) (w : World) :
  (gracefulExit disconnect c s1 w).1 = Fulfilled VUndefined
  /\ (gracefulExit disconnect c s2 (gracefulExit disconnect c s1 w).2).1
     = Fulfilled VUndefined.
Proof.
  destruct (gracefulExit_never_rejects disconnect c s1 w) as [w1 H1].
  destruct (gracefulExit_never_rejects disconnect c s2 w1) as [w2 H2].
  by rewrite H1; simpl; rewrite H2.
Qed.

(** X12. What [gracefulExit] writes. One stdout line naming the signal
    goes out before [$disconnect] is called. After that the function
    writes nothing if [$disconnect] fulfils, and exactly one stderr entry
    if it rejects, with the error itself as the second argument. *)
Theorem gracefulExit_console
    (disconnect : ref -> World -> Settled * World)
    (c : ref) (signal : string) (w : World) :
  let announced :=
    console_log ("[prisma] Received " +:+ signal +:+
                 ". Closing DB connections...") [] w in
  let closing := disconnect c announced in
  console announced =
    (console w ++
     [{| stream := Stdout;
         text := "[prisma] Received " +:+ signal +:+ ". Closing DB connections...";
         extra := [] |}])%list
  /\ console (gracefulExit disconnect c signal w).2 =
       (console closing.2 ++
        match closing.1 with
        | Fulfilled _ => []
        | Rejected err =>
            [{| stream := Stderr;
                text := "[prisma] Error during disconnect:";
                extra := [err] |}]
        end)%list.
Proof.
  intros announced closing. split; [done|].
  unfold gracefulExit. fold announced. fold closing.
  destruct closing as [[v|err] w']; simpl; [by rewrite app_nil_r | done].
Qed.

(** ** Client options *)

(** X13. Whatever the mode, the client records warnings and errors and
    never records queries; informational events are recorded exactly
    outside production, so the production levels are among the others. *)
Theorem prismaLog_levels (prod : bool) :
  (LQuery ∉ prismaLog prod)
  /\ (LWarn ∈ prismaLog prod)
  /\ (LError ∈ prismaLog prod)
  /\ (LInfo ∈ prismaLog prod <-> prod = false)
  /\ (prismaLog true ⊆ prismaLog prod).
Proof.
  split; [|split; [|split; [|split]]].
  - destruct prod; simpl; rewrite !not_elem_of_cons;
      repeat split; (discriminate || apply not_elem_of_nil).
  - destruct prod; simpl; rewrite !elem_of_cons; tauto.
  - destruct prod; simpl; rewrite !elem_of_cons; tauto.
  - destruct prod; simpl; rewrite !elem_of_cons, elem_of_nil;
      split; (discriminate || tauto || intros [?|[?|?]]; done).
  - intros level. destruct prod; simpl; rewrite !elem_of_cons; tauto.
Qed.

(** ** Reloads and the client's hooks *)

(** X14. Outside production, reloads do not stack hooks on the client.
    When the first evaluation creates the client, then after any number
    of further evaluations the exported client still has exactly one
    logging middleware and exactly one before-exit listener (unlike the
    process's signal handlers, which each evaluation adds to). *)
Theorem reloads_do_not_stack_hooks (n : nat) (w : World) :
  isProd (env w) = false ->
  global_prisma w = None ->
  let export := prisma (evaluate_module w).1 in
  heap (reload (S n) w) !! export =
    Some {| options := prismaOptions false;
            middlewares := [LoggingMiddleware false];
            beforeExit := [DisconnectBeforeExit false export] |}.
Proof.
  intros Hdev Hempty export. rewrite reload_first.
  destruct (evaluate_module_dev w Hdev) as (Hc & Hslot & _).
  destruct (reload_populated n (evaluate_module w).2
              (default (length (heap w)) (global_prisma w)))
    as [_ Hheap]; [|done|].
  { by rewrite (proj1 (evaluate_module_frame w)). }
  rewrite Hheap, evaluate_module_heap, Hempty, Hdev.
  unfold export. rewrite evaluate_module_prisma, Hempty. simpl.
  by rewrite list_lookup_middle.
Qed.

Lemma reloads_do_not_stack_hooks_witness :
  middlewares <$> heap (reload 4 (boot dev_env 0)) !! 0%nat
  = Some [LoggingMiddleware false].
Proof.
  exact (f_equal (fmap middlewares)
           (reloads_do_not_stack_hooks 3 (boot dev_env 0) eq_refl eq_refl)).
Defined.

Lemma prismaLog_levels_witness : LInfo ∈ prismaLog false.
Proof.
  exact (proj2 (proj1 (proj2 (proj2 (proj2 (prismaLog_levels false))))) eq_refl).
Defined.
